(** * habit-chain-tracker: the authentication surface

    A shallow embedding of the session store ([useAuth.tsx], of which the
    repository holds five successive revisions), of the sign-in page
    ([Auth.tsx]) and of the route guard ([ProtectedRoute.tsx]), with the
    properties the specification states about them.

    JavaScript strings are modelled as [string]: a sequence of code units,
    [String.length] standing for [.length]. *)

From Stdlib Require Import String Ascii List Bool Arith Lia.
Import ListNotations.
Open Scope string_scope.

(* ------------------------------------------------------------------ *)
(** ** JavaScript string primitives used by the sources *)

Module JS.

(** [s.endsWith(suffix)] *)
Definition endsWith (s suffix : string) : bool :=
  let n := String.length s in
  let m := String.length suffix in
  Nat.leb m n && String.eqb (substring (n - m) m s) suffix.

(** [s.slice(0, -1)]: everything but the last code unit. *)
Definition slice_0_neg1 (s : string) : string :=
  substring 0 (String.length s - 1) s.

(** Truthiness of a possibly-undefined string: [undefined] and [''] are falsy. *)
Definition truthy (s : option string) : bool :=
  match s with
  | None => false
  | Some v => negb (String.eqb v "")
  end.

(** [a || d] on a possibly-undefined string [a]. *)
Definition or_else (a : option string) (d : string) : string :=
  match a with
  | Some v => if String.eqb v "" then d else v
  | None => d
  end.

(** Does the code unit [c] occur in [s]? *)
Fixpoint includes (c : ascii) (s : string) : bool :=
  match s with
  | EmptyString => false
  | String d s' => Ascii.eqb c d || includes c s'
  end.

End JS.

(* ------------------------------------------------------------------ *)
(** ** The client-side context the resolvers read *)

Module Browser.

(** [window.location], the fields the sources read. *)
Record Location := mkLocation {
  origin : string;
  hostname : string;
  hash : string
}.

(** [window] ([None] when [typeof window === 'undefined']) and Vite's
    [import.meta.env.BASE_URL]. *)
Record Env := mkEnv {
  window : option Location;
  BASE_URL : option string
}.

End Browser.

(* ------------------------------------------------------------------ *)
(** ** The external auth service and the effects of the client code *)

Module Supabase.

(** The error object the service answers with; the sources read its
    [message] only. *)
Record AuthError := mkError { message : string }.

(** The calls of [supabase.auth] the sources make, with their arguments. *)
Inductive AuthCall :=
| signUp_call (email password : string) (emailRedirectTo : string)
              (full_name : option string)
| signInWithPassword_call (email password : string)
| signInWithOAuth_call (provider : string) (redirectTo : option string)
| signOut_call
| resetPasswordForEmail_call (email : string) (redirectTo : string).

(** What awaiting a call gives: the promise resolves to [{data, error}]
    (of [data] only [url] is read), or it rejects. *)
Inductive Reply :=
| Resolved (data_url : option string) (error : option AuthError)
| Rejected (reason : string).

Definition Service := AuthCall -> Reply.

End Supabase.

Module Effects.
Import Supabase.

(** Everything observable the modelled functions do, in program order. *)
Inductive Effect :=
| PreventDefault
| SetLoading (b : bool)
| Toast (title description variant : string)
| SetEmailDialogType (t : string)
| SetShowEmailDialog (b : bool)
| ConsoleLog (label : string) (args : list (option string))
| External (c : AuthCall).

Inductive Outcome (A : Type) :=
| Returned (a : A)
| Thrown (reason : string).
Arguments Returned {A} a.
Arguments Thrown {A} reason.

(** An asynchronous function: given the service's behaviour it produces the
    effects performed and either a value or a thrown exception. *)
Definition M (A : Type) : Type := Service -> list Effect * Outcome A.

Definition ret {A} (a : A) : M A := fun _ => ([], Returned a).

Definition bind {A B} (m : M A) (k : A -> M B) : M B :=
  fun svc =>
    match m svc with
    | (t, Returned a) => let (t', r) := k a svc in ((t ++ t')%list, r)
    | (t, Thrown e) => (t, Thrown e)
    end.

Definition emit (e : Effect) : M unit := fun _ => ([e], Returned tt).

(** [await supabase.auth.<call>(...)] *)
Definition await (c : AuthCall) : M (option string * option AuthError) :=
  fun svc =>
    ([External c],
     match svc c with
     | Resolved url err => Returned (url, err)
     | Rejected e => Thrown e
     end).

(** [try { body } catch (err) { handler } finally { fin }] *)
Definition try_catch_finally {A} (body : M A) (handler : string -> M A)
                             (fin : M unit) : M A :=
  fun svc =>
    let (t, r) := body svc in
    let (t', r') :=
      match r with
      | Returned a => ([], Returned a)
      | Thrown e => handler e svc
      end in
    match fin svc with
    | (tf, Returned _) => ((t ++ t' ++ tf)%list, r')
    | (tf, Thrown e) => ((t ++ t' ++ tf)%list, Thrown e)
    end.

Definition trace {A} (m : M A) (svc : Service) : list Effect := fst (m svc).
Definition outcome {A} (m : M A) (svc : Service) : Outcome A := snd (m svc).

Module Notations.
Notation "x <- m ;; k" := (bind m (fun x => k))
  (at level 61, m at next level, right associativity).
Notation "m ;;; k" := (bind m (fun _ => k))
  (at level 61, right associativity).
End Notations.

(** *** Reading a trace *)

Definition is_external (e : Effect) : bool :=
  match e with External _ => true | _ => false end.

Definition is_signUp (e : Effect) : bool :=
  match e with External (signUp_call _ _ _ _) => true | _ => false end.

(** Number of calls made to the external service. *)
Definition external_calls (t : list Effect) : nat :=
  List.length (filter is_external t).

(** Number of external sign-up calls. *)
Definition signUp_calls (t : list Effect) : nat :=
  List.length (filter is_signUp t).

(** The email-confirmation targets passed to the service. *)
Fixpoint confirmation_targets (t : list Effect) : list string :=
  match t with
  | [] => []
  | External (signUp_call _ _ r _) :: t' => r :: confirmation_targets t'
  | _ :: t' => confirmation_targets t'
  end.

(** The password-reset targets passed to the service. *)
Fixpoint reset_targets (t : list Effect) : list string :=
  match t with
  | [] => []
  | External (resetPasswordForEmail_call _ r) :: t' => r :: reset_targets t'
  | _ :: t' => reset_targets t'
  end.

(** The OAuth redirect targets passed to the service ([None]: the call was
    made without a [redirectTo] option). *)
Fixpoint oauth_targets (t : list Effect) : list (option string) :=
  match t with
  | [] => []
  | External (signInWithOAuth_call _ r) :: t' => r :: oauth_targets t'
  | _ :: t' => oauth_targets t'
  end.

(** The titles of the toasts shown. *)
Fixpoint toast_titles (t : list Effect) : list string :=
  match t with
  | [] => []
  | Toast title _ _ :: t' => title :: toast_titles t'
  | _ :: t' => toast_titles t'
  end.

End Effects.

(** The result every operation of the store returns: [{ error }]. *)
Record Result := mkResult { error : option Supabase.AuthError }.

(* ------------------------------------------------------------------ *)
(** ** The context value and [useAuth] *)

Module Context.
Import Effects.

Section Ctx.
(** [User] and [Session] are the service's types; the sources read a
    session's [user] and otherwise test both for presence only. *)
Variables User Session : Type.

(** [interface AuthContextType] *)
Record AuthContextType := mkContext {
  user : option User;
  session : option Session;
  loading : bool;
  signUp : string -> string -> option string -> M Result;
  signIn : string -> string -> M Result;
  signInWithGoogle : M Result;
  signOut : M unit;
  resetPassword : string -> M Result
}.

(** [useContext(AuthContext)]: [None] is the default value [undefined], seen
    outside every provider.

    part_000:502-508 (the same in part_001:154-160 and part_002:157-163)
    tests [!ctx]; part_002:276-282 (the same in part_003:121-127) tests
    [context === undefined]. A context value is the provider's object or
    [undefined], and an object is truthy, so the two tests agree. *)
Definition useAuth (ctx : option AuthContextType) : Outcome AuthContextType :=
  match ctx with
  | None => Thrown "useAuth must be used within an AuthProvider"
  | Some c => Returned c
  end.

End Ctx.

Arguments mkContext {User Session}.
Arguments user {User Session}.
Arguments session {User Session}.
Arguments loading {User Session}.
Arguments signUp {User Session}.
Arguments signIn {User Session}.
Arguments signInWithGoogle {User Session}.
Arguments signOut {User Session}.
Arguments resetPassword {User Session}.
Arguments useAuth {User Session}.

End Context.

(* ------------------------------------------------------------------ *)
(** ** The session store: state and the two start-up callbacks

    part_000:399-424; the same text in part_001:47-72, part_002:55-78 and
    part_002:189-212. *)

Module SessionStore.

Section Store.
Variables User Session : Type.
(** The [user] field of a [Session]. *)
Variable session_user : Session -> User.

(** The three [useState] cells of [AuthProvider]. *)
Record AuthState := mkState {
  user : option User;
  session : option Session;
  loading : bool
}.

(** [useState(null)], [useState(null)], [useState(true)] *)
Definition initial : AuthState := mkState None None true.

Definition setSession (s : option Session) (st : AuthState) : AuthState :=
  mkState (user st) s (loading st).

Definition setUser (u : option User) (st : AuthState) : AuthState :=
  mkState u (session st) (loading st).

Definition setLoading (b : bool) (st : AuthState) : AuthState :=
  mkState (user st) (session st) b.

(** [session?.user ?? null] *)
Definition user_of (s : option Session) : option User :=
  match s with
  | Some x => Some (session_user x)
  | None => None
  end.

(** The listener given to [supabase.auth.onAuthStateChange]. *)
Definition onAuthStateChange_cb (_event : string) (s : option Session)
                                (st : AuthState) : AuthState :=
  setLoading false (setUser (user_of s) (setSession s st)).

(** The continuation of [supabase.auth.getSession()]. *)
Definition getSession_cb (s : option Session) (st : AuthState) : AuthState :=
  setLoading false (setUser (user_of s) (setSession s st)).

(** Everything that can happen to a mounted store: a consumer invokes one of
    the five operations, the subscription notifies, or the initial fetch
    resolves. *)
Inductive Action :=
| SignUp (email password : string) (name : option string)
| SignIn (email password : string)
| SignInWithGoogle
| SignOut
| ResetPassword (email : string)
| AuthStateChange (event : string) (s : option Session)
| SessionFetched (s : option Session).

(** The operations call the service and none of the setters: whatever they
    cause reaches the state later, as an [AuthStateChange]. *)
Definition dispatch (a : Action) (st : AuthState) : AuthState :=
  match a with
  | AuthStateChange event s => onAuthStateChange_cb event s st
  | SessionFetched s => getSession_cb s st
  | SignUp _ _ _ | SignIn _ _ | SignInWithGoogle | SignOut
  | ResetPassword _ => st
  end.

(** Dispatching a list of actions, first to last. *)
Definition run_all (actions : list Action) (st : AuthState) : AuthState :=
  fold_left (fun acc a => dispatch a acc) actions st.

Inductive step : AuthState -> AuthState -> Prop :=
| step_dispatch (a : Action) (st : AuthState) : step st (dispatch a st).

(** Zero or more steps. *)
Inductive steps : AuthState -> AuthState -> Prop :=
| steps_refl (st : AuthState) : steps st st
| steps_cons (st st' st'' : AuthState) :
    step st st' -> steps st' st'' -> steps st st''.

Definition reachable (st : AuthState) : Prop := steps initial st.

End Store.

Arguments mkState {User Session}.
Arguments user {User Session}.
Arguments session {User Session}.
Arguments loading {User Session}.
Arguments initial {User Session}.
Arguments setSession {User Session}.
Arguments setUser {User Session}.
Arguments setLoading {User Session}.
Arguments user_of {User Session}.
Arguments onAuthStateChange_cb {User Session}.
Arguments getSession_cb {User Session}.
Arguments SignUp {Session}.
Arguments SignIn {Session}.
Arguments SignInWithGoogle {Session}.
Arguments SignOut {Session}.
Arguments ResetPassword {Session}.
Arguments AuthStateChange {Session}.
Arguments SessionFetched {Session}.
Arguments dispatch {User Session}.
Arguments run_all {User Session}.
Arguments step {User Session}.
Arguments steps {User Session}.
Arguments reachable {User Session}.

End SessionStore.

(* ------------------------------------------------------------------ *)
(** ** [useAuth.tsx], revision of part_000:356-508

    The base URL is computed from [window.location.origin] and Vite's base
    path; Google sign-in passes no redirect target. *)

Module UseAuthA.
Import Browser Supabase Effects Effects.Notations.

Definition getBaseUrl (env : Env) : string :=
  match window env with
  | None => ""
  | Some location =>
      let basePath := JS.or_else (BASE_URL env) "/" in
      let cleanBasePath :=
        if JS.endsWith basePath "/" then JS.slice_0_neg1 basePath
        else basePath in
      origin location ++ cleanBasePath
  end.

Definition signUp (env : Env) (email password : string)
                  (name : option string) : M Result :=
  let baseUrl := getBaseUrl env in
  r <- await (signUp_call email password (baseUrl ++ "/#/auth")
                (if JS.truthy name then name else None)) ;;
  ret (mkResult (snd r)).

Definition signIn (email password : string) : M Result :=
  r <- await (signInWithPassword_call email password) ;;
  ret (mkResult (snd r)).

Definition signInWithGoogle : M Result :=
  r <- await (signInWithOAuth_call "google" None) ;;
  emit (ConsoleLog "Google OAuth start URL:"
          [fst r; option_map message (snd r)]) ;;;
  ret (mkResult (snd r)).

Definition signOut : M unit :=
  _ <- await signOut_call ;;
  ret tt.

Definition resetPassword (env : Env) (email : string) : M Result :=
  let baseUrl := getBaseUrl env in
  r <- await (resetPasswordForEmail_call email (baseUrl ++ "/#/auth")) ;;
  ret (mkResult (snd r)).

(** The [value] handed to [AuthContext.Provider]. *)
Definition value {User Session} (env : Env)
    (st : SessionStore.AuthState User Session)
  : Context.AuthContextType User Session :=
  Context.mkContext
    (SessionStore.user st) (SessionStore.session st) (SessionStore.loading st)
    (signUp env) signIn signInWithGoogle signOut (resetPassword env).

End UseAuthA.

(* ------------------------------------------------------------------ *)
(** ** [useAuth.tsx], revision of part_001

    The base URL is one of two literals, chosen by host name; the local one
    ends in a slash and the email targets append [#/auth] directly. *)

Module UseAuthB.
Import Browser Supabase Effects Effects.Notations.

Definition getBaseUrl (env : Env) : string :=
  match window env with
  | None => ""
  | Some location =>
      let hostname := hostname location in
      if String.eqb hostname "localhost" || String.eqb hostname "127.0.0.1"
      then "http://localhost:8080/HabitChainTracker_prototype1/"
      else "https://jefferymaina.github.io/HabitChainTracker_prototype1"
  end.

Definition signUp (env : Env) (email password : string)
                  (name : option string) : M Result :=
  let baseUrl := getBaseUrl env in
  r <- await (signUp_call email password (baseUrl ++ "#/auth")
                (if JS.truthy name then name else None)) ;;
  ret (mkResult (snd r)).

Definition signInWithGoogle (env : Env) : M Result :=
  let baseUrl := getBaseUrl env in
  r <- await (signInWithOAuth_call "google" (Some baseUrl)) ;;
  emit (ConsoleLog "Google OAuth start URL:"
          [fst r; option_map message (snd r)]) ;;;
  ret (mkResult (snd r)).

Definition resetPassword (env : Env) (email : string) : M Result :=
  let baseUrl := getBaseUrl env in
  r <- await (resetPasswordForEmail_call email (baseUrl ++ "#/auth")) ;;
  ret (mkResult (snd r)).

End UseAuthB.

(* ------------------------------------------------------------------ *)
(** ** [useAuth.tsx], revision of part_002:1-163

    The OAuth target has a resolver of its own, commented
    [URL used for Google OAuth redirect (NO "#" allowed)]. *)

Module UseAuthC.
Import Browser Supabase Effects Effects.Notations.

Definition getOAuthRedirectUrl (env : Env) : string :=
  match window env with
  | None => ""
  | Some location =>
      let hostname := hostname location in
      if String.eqb hostname "localhost" || String.eqb hostname "127.0.0.1"
      then "http://localhost:8080/HabitChainTracker_prototype1/"
      else "https://jefferymaina.github.io/HabitChainTracker_prototype1"
  end.

Definition getAppBaseUrl (env : Env) : string :=
  let oauth := getOAuthRedirectUrl env in
  oauth.

Definition signUp (env : Env) (email password : string)
                  (name : option string) : M Result :=
  let baseUrl := getAppBaseUrl env in
  r <- await (signUp_call email password (baseUrl ++ "#/auth")
                (if JS.truthy name then name else None)) ;;
  ret (mkResult (snd r)).

Definition signInWithGoogle (env : Env) : M Result :=
  let redirectUrl := getOAuthRedirectUrl env in
  emit (ConsoleLog "Google redirect URL used:" [Some redirectUrl]) ;;;
  r <- await (signInWithOAuth_call "google" (Some redirectUrl)) ;;
  emit (ConsoleLog "Google OAuth start URL:"
          [fst r; option_map message (snd r)]) ;;;
  ret (mkResult (snd r)).

Definition resetPassword (env : Env) (email : string) : M Result :=
  let baseUrl := getAppBaseUrl env in
  r <- await (resetPasswordForEmail_call email (baseUrl ++ "#/auth")) ;;
  ret (mkResult (snd r)).

End UseAuthC.

(* ------------------------------------------------------------------ *)
(** ** [useAuth.tsx], revision of part_002:164-282

    The host-name switch tests ['localhost'] only, neither literal ends in a
    slash, and Google sign-in is sent back to [baseUrl + '/#/']. *)

Module UseAuthD.
Import Browser Supabase Effects Effects.Notations.

Definition getBaseUrl (env : Env) : string :=
  match window env with
  | None => ""
  | Some location =>
      if String.eqb (hostname location) "localhost"
      then "http://localhost:8080/HabitChainTracker_prototype1"
      else "https://jefferymaina.github.io/HabitChainTracker_prototype1"
  end.

Definition signUp (env : Env) (email password : string)
                  (name : option string) : M Result :=
  let baseUrl := getBaseUrl env in
  r <- await (signUp_call email password (baseUrl ++ "/#/auth")
                (if JS.truthy name then name else None)) ;;
  ret (mkResult (snd r)).

Definition signInWithGoogle (env : Env) : M Result :=
  let baseUrl := getBaseUrl env in
  r <- await (signInWithOAuth_call "google" (Some (baseUrl ++ "/#/"))) ;;
  ret (mkResult (snd r)).

Definition resetPassword (env : Env) (email : string) : M Result :=
  let baseUrl := getBaseUrl env in
  r <- await (resetPasswordForEmail_call email (baseUrl ++ "/#/auth")) ;;
  ret (mkResult (snd r)).

End UseAuthD.

(* ------------------------------------------------------------------ *)
(** ** [useAuth.tsx], revision of part_003:1-127

    The revision with explicit navigation: both start-up callbacks also move
    the browser from the landing or sign-in route to the dashboard. *)

Module UseAuthE.
Import Browser Supabase Effects Effects.Notations.

Definition getBaseUrl (env : Env) : string :=
  match window env with
  | None => ""
  | Some location =>
      if String.eqb (hostname location) "localhost"
      then "http://localhost:8080/HabitChainTracker_prototype1"
      else "https://jefferymaina.github.io/HabitChainTracker_prototype1"
  end.

Definition signInWithGoogle : M Result :=
  r <- await (signInWithOAuth_call "google" None) ;;
  ret (mkResult (snd r)).

Section Store.
Variables User Session : Type.
Variable session_user : Session -> User.

(** What the callbacks touch: the three state cells and
    [window.location.hash]. *)
Record Page := mkPage {
  store : SessionStore.AuthState User Session;
  location_hash : string
}.

(** [hash === '' || hash === '#/' || hash === '#/auth'] *)
Definition on_entry_route (hash : string) : bool :=
  String.eqb hash "" || String.eqb hash "#/" || String.eqb hash "#/auth".

(** [if (hash === '' || ...) window.location.hash = '#/dashboard'] *)
Definition go_to_dashboard (p : Page) : Page :=
  let hash := location_hash p in
  if on_entry_route hash then mkPage (store p) "#/dashboard" else p.

Definition set_state (s : option Session) (p : Page) : Page :=
  mkPage
    (SessionStore.setLoading false
       (SessionStore.setUser (SessionStore.user_of session_user s)
          (SessionStore.setSession s (store p))))
    (location_hash p).

(** The listener given to [supabase.auth.onAuthStateChange]
    (part_003:35-47). *)
Definition onAuthStateChange_cb (event : string) (s : option Session)
                                (p : Page) : Page :=
  let p' := set_state s p in
  match s with
  | Some _ =>
      if String.eqb event "SIGNED_IN" || String.eqb event "INITIAL_SESSION"
      then go_to_dashboard p'
      else p'
  | None => p'
  end.

(** The continuation of [supabase.auth.getSession()] (part_003:50-61). *)
Definition getSession_cb (s : option Session) (p : Page) : Page :=
  let p' := set_state s p in
  match s with
  | Some _ => go_to_dashboard p'
  | None => p'
  end.

End Store.

Arguments mkPage {User Session}.
Arguments store {User Session}.
Arguments location_hash {User Session}.
Arguments go_to_dashboard {User Session}.
Arguments set_state {User Session}.
Arguments onAuthStateChange_cb {User Session}.
Arguments getSession_cb {User Session}.

End UseAuthE.

(* ------------------------------------------------------------------ *)
(** ** [Auth.tsx]: the submit handler of the sign-in page (part_000:42-98) *)

Module AuthPage.
Import Supabase Effects Effects.Notations.

(** [type AuthMode = 'login' | 'signup'] *)
Inductive AuthMode := login | signup.

(** The state cells [handleSubmit] reads. *)
Record Form := mkForm {
  mode : AuthMode;
  email : string;
  password : string;
  confirmPassword : string;
  name : string
}.

Definition destructive (title description : string) : Effect :=
  Toast title description "destructive".

(** The body of the [try] block. An early [return] ends the branch; the
    [finally] clause still runs after it. *)
Definition handleSubmit_body {User Session}
    (ctx : Context.AuthContextType User Session) (f : Form) : M unit :=
  match mode f with
  | signup =>
      if negb (String.eqb (password f) (confirmPassword f)) then
        emit (destructive "Passwords do not match"
                "Please make sure your passwords match.") ;;;
        emit (SetLoading false)
      else if Nat.ltb (String.length (password f)) 6 then
        emit (destructive "Password too short"
                "Password must be at least 6 characters.") ;;;
        emit (SetLoading false)
      else
        r <- Context.signUp ctx (email f) (password f) (Some (name f)) ;;
        match error r with
        | Some e => emit (destructive "Sign up failed" (message e))
        | None =>
            emit (SetEmailDialogType "signup") ;;;
            emit (SetShowEmailDialog true)
        end
  | login =>
      r <- Context.signIn ctx (email f) (password f) ;;
      match error r with
      | Some e => emit (destructive "Login failed" (message e))
      | None => ret tt
      end
  end.

Definition handleSubmit {User Session}
    (ctx : Context.AuthContextType User Session) (f : Form) : M unit :=
  emit PreventDefault ;;;
  emit (SetLoading true) ;;;
  try_catch_finally
    (handleSubmit_body ctx f)
    (fun _err =>
       emit (destructive "An error occurred" "Please try again later."))
    (emit (SetLoading false)).

End AuthPage.

(* ------------------------------------------------------------------ *)
(** ** [ProtectedRoute.tsx]: the route guard

    src/components/protectedroute.tsx:4-18; the same logic in
    part_003:135-149. *)

Module Router.
Import Effects.

(** react-router's [Location], the fields that identify the place. *)
Record Location := mkLocation {
  pathname : string;
  search : string;
  hash : string
}.

(** The navigation state the guard attaches: [{ from: location }]. *)
Record NavState := mkNavState { from : Location }.

(** What a component renders. *)
Inductive Element (Children : Type) :=
| Null
| Navigate (to : string) (replace : bool) (state : NavState)
| Render (children : Children).
Arguments Null {Children}.
Arguments Navigate {Children} to replace state.
Arguments Render {Children} children.

Definition ProtectedRoute {User Session Children}
    (ctx : option (Context.AuthContextType User Session))
    (location : Location) (children : Children)
  : Outcome (Element Children) :=
  match Context.useAuth ctx with
  | Thrown e => Thrown e
  | Returned auth =>
      if Context.loading auth then Returned Null
      else match Context.user auth with
           | None => Returned (Navigate "/auth" true (mkNavState location))
           | Some _ => Returned (Render children)
           end
  end.

End Router.

(* ------------------------------------------------------------------ *)
(** ** [Auth.tsx]: the reset-password handler (part_000:100-135) and the
    confirmation dialog (part_000:286-322) *)

Module ResetDialog.
Import Supabase Effects.

(** What the page does beyond the effects of [handleSubmit]: the setters of
    the reset dialog's state cells. *)
Inductive PageEffect :=
| Shared (e : Effect)
| SetResetLoading (b : bool)
| SetShowForgotPassword (b : bool)
| SetForgotPasswordEmail (v : string).

(** Asynchronous functions of the page, over its wider set of effects. *)
Definition P (A : Type) : Type := Service -> list PageEffect * Outcome A.

Definition pret {A} (a : A) : P A := fun _ => ([], Returned a).

Definition pbind {A B} (m : P A) (k : A -> P B) : P B :=
  fun svc =>
    match m svc with
    | (t, Returned a) => let (t', r) := k a svc in ((t ++ t')%list, r)
    | (t, Thrown e) => (t, Thrown e)
    end.

Definition pemit (e : PageEffect) : P unit := fun _ => ([e], Returned tt).

(** Calling an operation of the store from the page. *)
Definition lift {A} (m : M A) : P A :=
  fun svc => let (t, r) := m svc in (map Shared t, r).

(** [try { body } catch (err) { handler } finally { fin }] *)
Definition ptry_catch_finally {A} (body : P A) (handler : string -> P A)
                              (fin : P unit) : P A :=
  fun svc =>
    let (t, r) := body svc in
    let (t', r') :=
      match r with
      | Returned a => ([], Returned a)
      | Thrown e => handler e svc
      end in
    match fin svc with
    | (tf, Returned _) => ((t ++ t' ++ tf)%list, r')
    | (tf, Thrown e) => ((t ++ t' ++ tf)%list, Thrown e)
    end.

Local Notation "x <- m ;; k" := (pbind m (fun x => k))
  (at level 61, m at next level, right associativity).
Local Notation "m ;;; k" := (pbind m (fun _ => k))
  (at level 61, right associativity).

Definition toast (title description : string) : P unit :=
  pemit (Shared (AuthPage.destructive title description)).

(** [handleForgotPassword]; [!forgotPasswordEmail] holds of the empty
    string only. *)
Definition handleForgotPassword {User Session}
    (ctx : Context.AuthContextType User Session)
    (forgotPasswordEmail : string) : P unit :=
  pemit (Shared PreventDefault) ;;;
  if negb (JS.truthy (Some forgotPasswordEmail)) then
    toast "Email required" "Please enter your email address."
  else
    pemit (SetResetLoading true) ;;;
    ptry_catch_finally
      (r <- lift (Context.resetPassword ctx forgotPasswordEmail) ;;
       match error r with
       | Some e => toast "Reset failed" (message e)
       | None =>
           pemit (SetShowForgotPassword false) ;;;
           pemit (Shared (SetEmailDialogType "reset")) ;;;
           pemit (Shared (SetShowEmailDialog true)) ;;;
           pemit (SetForgotPasswordEmail "")
       end)
      (fun _err => toast "An error occurred" "Please try again later.")
      (pemit (SetResetLoading false)).

(** The [useState] cells of the page that the two handlers write and the
    confirmation dialog reads. *)
Record PageState := mkPageState {
  email : string;
  forgotPasswordEmail : string;
  loading : bool;
  showEmailDialog : bool;
  emailDialogType : string;
  showForgotPassword : bool;
  resetLoading : bool
}.

(** The cells as [useState] initialises them, around the two text fields. *)
Definition opened (email forgotPasswordEmail : string) : PageState :=
  mkPageState email forgotPasswordEmail false false "signup" false false.

(** A setter writes its cell; the other effects leave the cells alone. *)
Definition apply (e : PageEffect) (s : PageState) : PageState :=
  match e with
  | Shared (SetLoading b) =>
      mkPageState (email s) (forgotPasswordEmail s) b (showEmailDialog s)
        (emailDialogType s) (showForgotPassword s) (resetLoading s)
  | Shared (SetEmailDialogType t) =>
      mkPageState (email s) (forgotPasswordEmail s) (loading s)
        (showEmailDialog s) t (showForgotPassword s) (resetLoading s)
  | Shared (SetShowEmailDialog b) =>
      mkPageState (email s) (forgotPasswordEmail s) (loading s) b
        (emailDialogType s) (showForgotPassword s) (resetLoading s)
  | SetResetLoading b =>
      mkPageState (email s) (forgotPasswordEmail s) (loading s)
        (showEmailDialog s) (emailDialogType s) (showForgotPassword s) b
  | SetShowForgotPassword b =>
      mkPageState (email s) (forgotPasswordEmail s) (loading s)
        (showEmailDialog s) (emailDialogType s) b (resetLoading s)
  | SetForgotPasswordEmail v =>
      mkPageState (email s) v (loading s) (showEmailDialog s)
        (emailDialogType s) (showForgotPassword s) (resetLoading s)
  | Shared _ => s
  end.

Definition after (t : list PageEffect) (s : PageState) : PageState :=
  fold_left (fun acc e => apply e acc) t s.

(** The dialog's title (part_000:293-295). *)
Definition dialog_title (s : PageState) : string :=
  if String.eqb (emailDialogType s) "signup" then "Check your email"
  else "Password reset sent".

(** The address the dialog says the link went to (part_000:297-307):
    [email] for a sign-up, [forgotPasswordEmail || email] for a reset. *)
Definition dialog_address (s : PageState) : string :=
  if String.eqb (emailDialogType s) "signup" then email s
  else JS.or_else (Some (forgotPasswordEmail s)) (email s).

(** *** Reading a page trace *)

(** The calls made to the service, in order. *)
Fixpoint page_calls (t : list PageEffect) : list AuthCall :=
  match t with
  | [] => []
  | Shared (External c) :: t' => c :: page_calls t'
  | _ :: t' => page_calls t'
  end.

(** The toasts shown, as (title, description). *)
Fixpoint page_toasts (t : list PageEffect) : list (string * string) :=
  match t with
  | [] => []
  | Shared (Toast title description _) :: t' =>
      (title, description) :: page_toasts t'
  | _ :: t' => page_toasts t'
  end.

End ResetDialog.

(* ------------------------------------------------------------------ *)
(** ** Reading the calls and toasts of a store or form trace *)

Module Traces.
Import Supabase Effects.

(** The calls made to the service, in order. *)
Fixpoint calls (t : list Effect) : list AuthCall :=
  match t with
  | [] => []
  | External c :: t' => c :: calls t'
  | _ :: t' => calls t'
  end.

(** The toasts shown, as (title, description). *)
Fixpoint toasts (t : list Effect) : list (string * string) :=
  match t with
  | [] => []
  | Toast title description _ :: t' => (title, description) :: toasts t'
  | _ :: t' => toasts t'
  end.

End Traces.

(* ------------------------------------------------------------------ *)
(** ** Sample inputs *)

Module Samples.
Import Browser Supabase.

(** The page opened on the local preview server under either of its names,
    and on the deployed site. *)
Definition at_localhost : Env :=
  mkEnv (Some (mkLocation "http://localhost:8080" "localhost" ""))
        (Some "/HabitChainTracker_prototype1/").

Definition at_loopback : Env :=
  mkEnv (Some (mkLocation "http://127.0.0.1:8080" "127.0.0.1" ""))
        (Some "/HabitChainTracker_prototype1/").

Definition at_github_pages : Env :=
  mkEnv (Some (mkLocation "https://jefferymaina.github.io"
                 "jefferymaina.github.io" "#/auth"))
        (Some "/HabitChainTracker_prototype1/").

(** A service that accepts every call. *)
Definition accepting : Service := fun _ => Resolved None None.

(** A context value for a given (user, session, loading) triple, with the
    operations of part_000. *)
Definition context_of {User Session} (u : option User) (s : option Session)
                      (l : bool) : Context.AuthContextType User Session :=
  UseAuthA.value at_github_pages (SessionStore.mkState u s l).

Definition dashboard : Router.Location := Router.mkLocation "/dashboard" "" "".

(** A run of the store: the initial fetch finds no session; later the user
    signs in, is notified, and signs out. *)
Definition run_resolved : SessionStore.AuthState string string :=
  SessionStore.run_all id [SessionStore.SessionFetched None]
    SessionStore.initial.

Definition run_later : SessionStore.AuthState string string :=
  SessionStore.run_all id
    [SessionStore.SignIn "user@example.com" "secret1";
     SessionStore.AuthStateChange "SIGNED_IN" (Some "session-1");
     SessionStore.SignOut;
     SessionStore.AuthStateChange "SIGNED_OUT" None]
    run_resolved.

(** A page on the sign-in route, and one on a route of the app, whose store
    has resolved without a user. *)
Definition at_sign_in : UseAuthE.Page string string :=
  UseAuthE.mkPage (SessionStore.mkState None None false) "#/auth".

Definition at_habits : UseAuthE.Page string string :=
  UseAuthE.mkPage (SessionStore.mkState None None false) "#/habits".

End Samples.

Module MoreSamples.
Import Browser.

(** The deployed site built with a base path that has no final slash. *)
Definition at_github_pages_bare : Env :=
  mkEnv (Some (mkLocation "https://jefferymaina.github.io"
                 "jefferymaina.github.io" ""))
        (Some "/HabitChainTracker_prototype1").

(** No window at all, as when the module is evaluated outside a browser. *)
Definition without_window : Env := mkEnv None (Some "/").

End MoreSamples.

(* ================================================================== *)
(** * Properties *)

(* ------------------------------------------------------------------ *)
(** ** Strings *)

Module StringFacts.

Lemma substring_split (s : string) :
  forall n, n <= String.length s ->
    substring 0 n s ++ substring n (String.length s - n) s = s.
Proof.
  induction s as [|c s IH]; intros [|n] Hn; simpl in *.
  - reflexivity.
  - lia.
  - f_equal. specialize (IH 0 (Nat.le_0_l _)). simpl in IH.
    rewrite Nat.sub_0_r in IH.
    destruct (String.length s) eqn:E.
    + destruct s; [reflexivity | discriminate].
    + simpl in IH. destruct s; [discriminate | exact IH].
  - f_equal. apply IH. lia.
Qed.

(** Dropping a final slash and putting it back gives the string again. *)
Lemma slice_then_slash (s : string) :
  JS.endsWith s "/" = true -> JS.slice_0_neg1 s ++ "/" = s.
Proof.
  unfold JS.endsWith, JS.slice_0_neg1. simpl String.length.
  intros H. apply andb_true_iff in H as [Hlen Hsuf].
  apply Nat.leb_le in Hlen. apply String.eqb_eq in Hsuf.
  pose proof (substring_split s (String.length s - 1)) as Hsplit.
  replace (String.length s - (String.length s - 1)) with 1 in Hsplit by lia.
  rewrite Hsuf in Hsplit. apply Hsplit. lia.
Qed.

Lemma append_assoc (a b c : string) : (a ++ b) ++ c = a ++ (b ++ c).
Proof. induction a as [|x a IH]; simpl; [reflexivity | now rewrite IH]. Qed.

End StringFacts.

(* ------------------------------------------------------------------ *)
(** ** The redirect resolver *)

Module Resolver.
Import Browser Supabase Effects Samples.

Ltac by_hostname location :=
  let h := fresh "h" in
  destruct location as [? h ?]; simpl in *;
  repeat match goal with
         | |- context [String.eqb ?a ?b] => destruct (String.eqb_spec a b)
         end;
  simpl; subst; try reflexivity; try congruence.

(** part_001:32-45: the two local names go to the local literal, every other
    host name to the production literal. *)
Lemma getBaseUrl_B_switch (location : Location) (base : option string) :
  let url := UseAuthB.getBaseUrl (mkEnv (Some location) base) in
  (hostname location = "localhost" \/ hostname location = "127.0.0.1" ->
   url = "http://localhost:8080/HabitChainTracker_prototype1/") /\
  (hostname location <> "localhost" -> hostname location <> "127.0.0.1" ->
   url = "https://jefferymaina.github.io/HabitChainTracker_prototype1").
Proof.
  unfold UseAuthB.getBaseUrl. split.
  - intros [H | H]; by_hostname location.
  - intros H1 H2; by_hostname location.
Qed.

Lemma getBaseUrl_B_hostname_only (l1 l2 : Location) (b1 b2 : option string) :
  hostname l1 = hostname l2 ->
  UseAuthB.getBaseUrl (mkEnv (Some l1) b1)
  = UseAuthB.getBaseUrl (mkEnv (Some l2) b2).
Proof. unfold UseAuthB.getBaseUrl; simpl. now intros ->. Qed.

(** part_002:32-45 is the same switch. *)
Lemma getOAuthRedirectUrl_is_getBaseUrl_B (env : Env) :
  UseAuthC.getOAuthRedirectUrl env = UseAuthB.getBaseUrl env.
Proof. reflexivity. Qed.

(** part_002:182-187 (and part_003:19-24): only ['localhost'] is local. *)
Lemma getBaseUrl_D_switch (location : Location) (base : option string) :
  let url := UseAuthD.getBaseUrl (mkEnv (Some location) base) in
  (hostname location = "localhost" ->
   url = "http://localhost:8080/HabitChainTracker_prototype1") /\
  (hostname location <> "localhost" ->
   url = "https://jefferymaina.github.io/HabitChainTracker_prototype1").
Proof.
  unfold UseAuthD.getBaseUrl. split; intros H; by_hostname location.
Qed.

Lemma getBaseUrl_E_is_getBaseUrl_D (env : Env) :
  UseAuthE.getBaseUrl env = UseAuthD.getBaseUrl env.
Proof. reflexivity. Qed.

(** C1. The resolver is to return the local URL for ['localhost'] and for
    the loopback address ['127.0.0.1']. The resolver of part_002:182-187
    sends the loopback address to the production URL, where the resolvers of
    part_001:32-45 and part_002:32-45 return their local URL for it. *)
Theorem getBaseUrl_D_loopback_is_production :
  UseAuthD.getBaseUrl at_loopback
  = "https://jefferymaina.github.io/HabitChainTracker_prototype1"
  /\ UseAuthD.getBaseUrl at_localhost
     = "http://localhost:8080/HabitChainTracker_prototype1"
  /\ UseAuthB.getBaseUrl at_loopback
     = "http://localhost:8080/HabitChainTracker_prototype1/"
  /\ UseAuthC.getOAuthRedirectUrl at_loopback
     = "http://localhost:8080/HabitChainTracker_prototype1/".
Proof. repeat split. Qed.

(** part_002:111-125: with a window, the OAuth target is one of the two
    literals (an origin followed by the base path) and holds no [#]. *)
Lemma signInWithGoogle_C_target (location : Location) (base : option string)
                                (svc : Service) :
  exists url,
    oauth_targets (trace (UseAuthC.signInWithGoogle (mkEnv (Some location) base)) svc)
    = [Some url]
    /\ JS.includes "#" url = false
    /\ (url = "http://localhost:8080" ++ "/HabitChainTracker_prototype1/"
        \/ url = "https://jefferymaina.github.io" ++ "/HabitChainTracker_prototype1").
Proof.
  exists (UseAuthC.getOAuthRedirectUrl (mkEnv (Some location) base)).
  unfold trace, UseAuthC.signInWithGoogle, UseAuthC.getOAuthRedirectUrl,
    bind, emit, await, ret; simpl.
  destruct (svc _); simpl;
    (split; [reflexivity |]);
    destruct (_ || _); simpl; auto.
Qed.

(** part_002:238-250: the OAuth target always carries the fragment [#/]. *)
Lemma signInWithGoogle_D_target (env : Env) (svc : Service) :
  oauth_targets (trace (UseAuthD.signInWithGoogle env) svc)
  = [Some (UseAuthD.getBaseUrl env ++ "/#/")].
Proof.
  unfold trace, UseAuthD.signInWithGoogle, bind, await, ret; simpl.
  destruct (svc _); reflexivity.
Qed.

(** C2. The OAuth redirect target is to carry no fragment. The
    [signInWithGoogle] of part_002:238-250 passes the base URL followed by
    [/#/]; the one of part_002:111-125, whose comments forbid a [#] there,
    passes the bare resolver result. *)
Theorem signInWithGoogle_D_appends_fragment (svc : Service) :
  oauth_targets (trace (UseAuthD.signInWithGoogle at_localhost) svc)
  = [Some "http://localhost:8080/HabitChainTracker_prototype1/#/"]
  /\ JS.includes "#" "http://localhost:8080/HabitChainTracker_prototype1/#/"
     = true
  /\ oauth_targets (trace (UseAuthC.signInWithGoogle at_localhost) svc)
     = [Some "http://localhost:8080/HabitChainTracker_prototype1/"].
Proof.
  unfold trace, UseAuthD.signInWithGoogle, UseAuthC.signInWithGoogle,
    bind, emit, await, ret; simpl.
  destruct (svc _), (svc _); repeat split.
Qed.

(** part_000:387-397: when the base path ends in a slash, as Vite's does,
    the base URL followed by a slash is the origin followed by the base
    path. *)
Lemma getBaseUrl_A_slash (location : Location) (basePath : string) :
  basePath <> "" -> JS.endsWith basePath "/" = true ->
  UseAuthA.getBaseUrl (mkEnv (Some location) (Some basePath)) ++ "/"
  = origin location ++ basePath.
Proof.
  intros Hne Hend. unfold UseAuthA.getBaseUrl; simpl.
  destruct (String.eqb_spec basePath ""); [contradiction |].
  rewrite Hend, StringFacts.append_assoc.
  now rewrite StringFacts.slice_then_slash.
Qed.

(** part_000:426-444, 475-486: [signUp] and [resetPassword] hand the
    service one and the same string, built from the resolver's result. *)
Lemma email_targets_agree (env : Env) (email email' password : string)
                            (name : option string) (svc svc' : Service) :
  let target := (UseAuthA.getBaseUrl env ++ "/") ++ "#/auth" in
  confirmation_targets (trace (UseAuthA.signUp env email password name) svc)
  = [target]
  /\ reset_targets (trace (UseAuthA.resetPassword env email') svc')
     = [target].
Proof.
  unfold trace, UseAuthA.signUp, UseAuthA.resetPassword, bind, await, ret.
  simpl. rewrite StringFacts.append_assoc.
  destruct (svc _), (svc' _); split; reflexivity.
Qed.

End Resolver.

(* ------------------------------------------------------------------ *)
(** ** The sign-in page *)

Module SignUpForm.
Import Browser Supabase Effects AuthPage Samples.

(** Every revision's [signUp] makes one call to the service, a sign-up call,
    whatever the service answers. *)
Lemma signUp_A_trace (env : Env) (email password : string)
                     (name : option string) (svc : Service) :
  exists call,
    trace (UseAuthA.signUp env email password name) svc = [External call]
    /\ is_signUp (External call) = true.
Proof.
  unfold trace, UseAuthA.signUp, bind, await, ret; simpl.
  eexists; destruct (svc _); simpl; split; reflexivity.
Qed.

Section Submit.
Variables User Session : Type.
Variable env : Env.
Variable st : SessionStore.AuthState User Session.
Variable svc : Service.

Let ctx := UseAuthA.value env st.

Lemma mismatch_trace (email password confirmPassword name : string) :
  password <> confirmPassword ->
  trace (handleSubmit ctx (mkForm signup email password confirmPassword name))
        svc
  = [PreventDefault; SetLoading true;
     destructive "Passwords do not match"
       "Please make sure your passwords match.";
     SetLoading false; SetLoading false].
Proof.
  intros Hne. unfold trace, handleSubmit, handleSubmit_body; simpl.
  destruct (String.eqb_spec password confirmPassword); [contradiction |].
  reflexivity.
Qed.

Lemma too_short_trace (email password name : string) :
  String.length password < 6 ->
  trace (handleSubmit ctx (mkForm signup email password password name)) svc
  = [PreventDefault; SetLoading true;
     destructive "Password too short"
       "Password must be at least 6 characters.";
     SetLoading false; SetLoading false].
Proof.
  intros Hlen. unfold trace, handleSubmit, handleSubmit_body; simpl.
  rewrite String.eqb_refl; simpl.
  apply Nat.ltb_lt in Hlen. rewrite Hlen. reflexivity.
Qed.

(** With both checks passed the handler calls the service once, before any
    toast or dialog, and whatever follows is presentation only. *)
Lemma accepted_trace (email password name : string) :
  6 <= String.length password ->
  exists call rest,
    trace (handleSubmit ctx (mkForm signup email password password name)) svc
    = PreventDefault :: SetLoading true :: External call :: rest
    /\ is_signUp (External call) = true
    /\ filter is_external rest = [].
Proof.
  intros Hlen. unfold trace, handleSubmit, handleSubmit_body; simpl.
  rewrite String.eqb_refl; simpl.
  apply Nat.ltb_ge in Hlen. rewrite Hlen.
  cbv [try_catch_finally bind emit ctx UseAuthA.value Context.signUp
       UseAuthA.signUp await ret].
  match goal with
  | |- context [svc ?c] =>
      exists c; destruct (svc c) as [url [e|]|reason]
  end; simpl; eexists; (split; [reflexivity | split; reflexivity]).
Qed.

End Submit.

(** C3. For every sign-up submission the external sign-up call is attempted
    exactly once if and only if the password has at least 6 characters and
    equals its confirmation; then it is the only external call. When the
    confirmation differs, 'Passwords do not match' is reported, when it
    agrees and the password is shorter than 6, 'Password too short', and in
    both cases no external call is made. *)
Theorem signUp_attempted_iff_valid
    (User Session : Type) (env : Env)
    (st : SessionStore.AuthState User Session) (svc : Service)
    (email password confirmPassword name : string) :
  let t := trace (handleSubmit (UseAuthA.value env st)
                    (mkForm signup email password confirmPassword name)) svc in
  (signUp_calls t = 1
   <-> 6 <= String.length password /\ password = confirmPassword)
  /\ (6 <= String.length password /\ password = confirmPassword ->
      external_calls t = 1)
  /\ (password <> confirmPassword ->
      external_calls t = 0
      /\ toast_titles t = ["Passwords do not match"])
  /\ (password = confirmPassword -> String.length password < 6 ->
      external_calls t = 0
      /\ toast_titles t = ["Password too short"]).
Proof.
  intros t. subst t.
  destruct (String.eqb_spec password confirmPassword) as [<- | Hne].
  - destruct (Nat.lt_ge_cases (String.length password) 6) as [Hlt | Hge].
    + rewrite (too_short_trace _ _ env st svc email password name Hlt).
      unfold signUp_calls, external_calls; simpl.
      repeat split; try discriminate; try lia; try congruence.
    + destruct (accepted_trace _ _ env st svc email password name Hge)
        as (call & rest & -> & Hcall & Hrest).
      assert (Hno : filter is_signUp rest = []).
      { clear -Hrest. induction rest as [|e rest IH]; [reflexivity |].
        simpl in *. destruct e; simpl in *; try (apply IH; assumption).
        discriminate. }
      unfold signUp_calls, external_calls; simpl.
      simpl in Hcall. rewrite Hcall, Hrest, Hno; simpl.
      repeat split; auto; try congruence; try lia.
  - rewrite (mismatch_trace _ _ env st svc email password confirmPassword
               name Hne).
    unfold signUp_calls, external_calls; simpl.
    repeat split; try discriminate; try congruence.
    all: intros [_ H]; congruence.
Qed.

(** The specification's scenarios: ["abc12"] is rejected as too short and
    ["secret1"] against ["secret2"] as not matching, both without a call;
    ["secret1"] confirmed is sent on. *)
Lemma signUp_attempted_iff_valid_scenarios :
  let submit p c :=
    trace (handleSubmit
             (UseAuthA.value at_github_pages
                (@SessionStore.initial string string))
             (mkForm signup "user@example.com" p c "User"))
          accepting in
  (external_calls (submit "abc12" "abc12") = 0
   /\ toast_titles (submit "abc12" "abc12") = ["Password too short"])
  /\ (external_calls (submit "secret1" "secret2") = 0
      /\ toast_titles (submit "secret1" "secret2")
         = ["Passwords do not match"])
  /\ external_calls (submit "secret1" "secret1") = 1.
Proof.
  intros submit; subst submit; cbv beta.
  pose proof (signUp_attempted_iff_valid string string
                at_github_pages SessionStore.initial
                accepting "user@example.com")
    as H.
  split; [| split].
  - apply (H "abc12" "abc12" "User"); [reflexivity | simpl; lia].
  - apply (H "secret1" "secret2" "User"); discriminate.
  - apply (H "secret1" "secret1" "User"); split; [simpl; lia | reflexivity].
Defined.

End SignUpForm.

(* ------------------------------------------------------------------ *)
(** ** [useAuth] and the route guard *)

Module Guard.
Import Effects Router Samples.

(** C10. Outside an [AuthProvider] (context undefined) [useAuth] throws the
    error 'useAuth must be used within an AuthProvider' instead of
    returning; inside a provider it returns the provider's context value
    unchanged. *)
Theorem useAuth_requires_provider (User Session : Type) :
  Context.useAuth (@None (Context.AuthContextType User Session))
  = Thrown "useAuth must be used within an AuthProvider"
  /\ forall value : Context.AuthContextType User Session,
       Context.useAuth (Some value) = Returned value.
Proof. split; reflexivity. Qed.

(** C4. For every (loading, user) pair given to the route guard: while
    loading is true it renders nothing regardless of the user value; when
    loading is false it renders the protected children if and only if a user
    is present, and otherwise redirects. *)
Theorem guard_decision
    (User Session Children : Type)
    (auth : Context.AuthContextType User Session)
    (location : Location) (children : Children) :
  let shown := ProtectedRoute (Some auth) location children in
  (Context.loading auth = true -> shown = Returned Null)
  /\ (Context.loading auth = false ->
      (shown = Returned (Render children)
       <-> exists u, Context.user auth = Some u)
      /\ (Context.user auth = None ->
          shown = Returned (Navigate "/auth" true (mkNavState location)))).
Proof.
  unfold ProtectedRoute; simpl.
  destruct (Context.loading auth); split; intros Hl; try discriminate.
  - reflexivity.
  - destruct (Context.user auth) as [u|]; split.
    + split; [intros _; now exists u | reflexivity].
    + discriminate.
    + split; [discriminate | intros [u Hu]; discriminate].
    + reflexivity.
Qed.

(** The guard on the four (loading, user) pairs. *)
Lemma guard_decision_cases :
  let guard (l : bool) (u : option string) :=
    ProtectedRoute (Some (context_of u (@None string) l)) dashboard tt in
  guard true None = Returned Null
  /\ guard true (Some "u1") = Returned Null
  /\ guard false (Some "u1") = Returned (Render tt)
  /\ guard false None
     = Returned (Navigate "/auth" true (mkNavState dashboard)).
Proof.
  intros guard; subst guard; cbv beta.
  repeat apply conj.
  - apply (guard_decision string string unit (context_of None None true)
             dashboard tt). reflexivity.
  - apply (guard_decision string string unit
             (context_of (Some "u1") None true) dashboard tt). reflexivity.
  - apply (guard_decision string string unit
             (context_of (Some "u1") None false) dashboard tt);
      [reflexivity | now exists "u1"].
  - apply (guard_decision string string unit (context_of None None false)
             dashboard tt); reflexivity.
Defined.

(** C8. Invoked with loading=false and user=null while the current location
    is /dashboard, the guard redirects to /auth, carrying the
    originally-requested location /dashboard in the navigation state's
    'from' field. *)
Theorem guard_redirect_carries_origin
    (User Session Children : Type)
    (auth : Context.AuthContextType User Session)
    (location : Location) (children : Children) :
  Context.loading auth = false ->
  Context.user auth = None ->
  pathname location = "/dashboard" ->
  exists state,
    ProtectedRoute (Some auth) location children
    = Returned (Navigate "/auth" true state)
    /\ from state = location
    /\ pathname (from state) = "/dashboard".
Proof.
  intros Hl Hu Hp. unfold ProtectedRoute; simpl. rewrite Hl, Hu.
  exists (mkNavState location). auto.
Qed.

Lemma guard_redirect_carries_origin_dashboard :
  exists state,
    ProtectedRoute (Some (context_of (@None string) (@None string) false))
                   dashboard tt
    = Returned (Navigate "/auth" true state)
    /\ from state = dashboard
    /\ pathname (from state) = "/dashboard".
Proof.
  apply (guard_redirect_carries_origin string string unit
           (context_of None None false) dashboard tt); reflexivity.
Defined.

End Guard.

(* ------------------------------------------------------------------ *)
(** ** The session store *)

Module Store.
Import SessionStore Samples.

Section Callbacks.
Variables User Session : Type.
Variable session_user : Session -> User.

Abbreviation on_change := (onAuthStateChange_cb session_user).
Abbreviation on_fetch := (getSession_cb session_user).
Abbreviation run := (dispatch session_user).

(** Either callback overwrites all three cells. *)
Lemma on_change_result (event : string) (s : option Session)
                       (st : AuthState User Session) :
  on_change event s st = mkState (user_of session_user s) s false.
Proof. reflexivity. Qed.

Lemma on_fetch_result (s : option Session) (st : AuthState User Session) :
  on_fetch s st = mkState (user_of session_user s) s false.
Proof. reflexivity. Qed.

(** C5. For every session value, applying the initial-session-fetch
    callback and the change-subscription callback to the store state in
    either order, with that same session value, yields the same final
    (user, session, loading) state; each callback is idempotent. *)
Theorem startup_callbacks_converge (event : string) (s : option Session)
                                   (st : AuthState User Session) :
  on_fetch s (on_change event s st) = on_change event s (on_fetch s st)
  /\ on_change event s (on_change event s st) = on_change event s st
  /\ on_fetch s (on_fetch s st) = on_fetch s st.
Proof.
  rewrite !on_change_result, !on_fetch_result. repeat split.
Qed.

(** No action raises the flag again. *)
Lemma dispatch_keeps_resolved (a : Action Session) (st : AuthState User Session) :
  loading st = false -> loading (run a st) = false.
Proof. destruct a; simpl; auto. Qed.

Lemma step_keeps_resolved (st st' : AuthState User Session) :
  step session_user st st' -> loading st = false -> loading st' = false.
Proof. intros [a st0] H. now apply dispatch_keeps_resolved. Qed.

(** The flag can only go from true to false. *)
Lemma step_loading_monotone (st st' : AuthState User Session) :
  step session_user st st' -> loading st' = true -> loading st = true.
Proof.
  intros Hstep H'. destruct (loading st) eqn:E; [reflexivity |].
  rewrite (step_keeps_resolved _ _ Hstep E) in H'. discriminate.
Qed.

(** The first notification or fetch result lowers it. *)
Lemma callbacks_resolve (event : string) (s : option Session)
                        (st : AuthState User Session) :
  loading (run (AuthStateChange event s) st) = false
  /\ loading (run (SessionFetched s) st) = false.
Proof. split; reflexivity. Qed.

(** C6. The loading flag is a one-way latch: it starts true, and in every
    reachable state of the store's step relation, once loading is false no
    subsequent operation or callback (sign in, sign up, sign out,
    subscription notification, initial session fetch) sets it back to
    true. *)
Theorem loading_is_one_way (st st' : AuthState User Session) :
  reachable session_user st ->
  loading st = false ->
  steps session_user st st' ->
  loading (@initial User Session) = true /\ loading st' = false.
Proof.
  intros _ Hl Hsteps. split; [reflexivity |].
  induction Hsteps as [st | st mid st' Hstep _ IH]; [assumption |].
  apply IH. eapply step_keeps_resolved; eassumption.
Qed.

Lemma steps_run_all (actions : list (Action Session)) :
  forall st, steps session_user st (run_all session_user actions st).
Proof.
  induction actions as [|a actions IH]; intros st; simpl.
  - apply steps_refl.
  - eapply steps_cons; [apply step_dispatch | apply IH].
Qed.

End Callbacks.

Lemma loading_is_one_way_run :
  loading (@initial string string) = true /\ loading run_later = false.
Proof.
  apply (loading_is_one_way string string id run_resolved run_later).
  - apply steps_run_all.
  - reflexivity.
  - apply steps_run_all.
Defined.

End Store.

(* ------------------------------------------------------------------ *)
(** ** The revision with explicit navigation (part_003:31-64) *)

Module Navigation.
Import UseAuthE Samples.

Section Callbacks.
Variables User Session : Type.
Variable session_user : Session -> User.

Abbreviation on_change := (onAuthStateChange_cb session_user).
Abbreviation on_fetch := (getSession_cb session_user).

Lemma on_entry_route_iff (hash : string) :
  on_entry_route hash = true
  <-> hash = "" \/ hash = "#/" \/ hash = "#/auth".
Proof.
  unfold on_entry_route.
  rewrite !orb_true_iff, !String.eqb_eq. tauto.
Qed.

Lemma set_state_hash (s : option Session) (p : Page User Session) :
  location_hash (set_state session_user s p) = location_hash p.
Proof. reflexivity. Qed.

Lemma go_to_dashboard_hash (p : Page User Session) :
  location_hash (go_to_dashboard p)
  = if on_entry_route (location_hash p) then "#/dashboard"
    else location_hash p.
Proof.
  unfold go_to_dashboard. now destruct (on_entry_route (location_hash p)).
Qed.

Lemma sign_in_event_iff (event : string) :
  String.eqb event "SIGNED_IN" || String.eqb event "INITIAL_SESSION" = true
  <-> event = "SIGNED_IN" \/ event = "INITIAL_SESSION".
Proof. now rewrite orb_true_iff, !String.eqb_eq. Qed.

(** C9, as the code has it. Whenever the initial session fetch, or an
    auth-state notification whose event is SIGNED_IN or INITIAL_SESSION,
    delivers a non-null session and the current location hash is '', '#/'
    or '#/auth', the callback sets the hash to '#/dashboard'; for every
    other hash value, for a notification of any other event, and whenever
    the delivered session is null, the location hash is left unchanged. *)
Theorem callbacks_navigate_from_entry (event : string) (s : option Session)
                                      (p : Page User Session) :
  let entry := location_hash p = "" \/ location_hash p = "#/"
               \/ location_hash p = "#/auth" in
  let sign_in := event = "SIGNED_IN" \/ event = "INITIAL_SESSION" in
  (s <> None -> entry ->
   location_hash (on_fetch s p) = "#/dashboard"
   /\ (sign_in -> location_hash (on_change event s p) = "#/dashboard"))
  /\ (s = None \/ ~ entry ->
      location_hash (on_fetch s p) = location_hash p
      /\ location_hash (on_change event s p) = location_hash p)
  /\ (~ sign_in ->
      location_hash (on_change event s p) = location_hash p).
Proof.
  intros entry sign_in. subst entry sign_in.
  pose proof (on_entry_route_iff (location_hash p)) as He.
  pose proof (sign_in_event_iff event) as Hn.
  unfold onAuthStateChange_cb, getSession_cb.
  destruct s as [x|];
    [destruct (String.eqb event "SIGNED_IN"
               || String.eqb event "INITIAL_SESSION") |];
    rewrite ?go_to_dashboard_hash, ?set_state_hash;
    destruct (on_entry_route (location_hash p));
    intuition (try reflexivity; try discriminate; try congruence).
Qed.

End Callbacks.

(** C9, as stated, fails: a token refresh delivers a non-null session while
    the hash is '#/auth', and the listener leaves the hash where it is. *)
Lemma token_refresh_stays_on_entry :
  on_entry_route (location_hash at_sign_in) = true
  /\ location_hash
       (onAuthStateChange_cb id "TOKEN_REFRESHED" (Some "session-1") at_sign_in)
     = "#/auth"
  /\ location_hash
       (onAuthStateChange_cb id "TOKEN_REFRESHED" (Some "session-1") at_sign_in)
     <> "#/dashboard".
Proof. repeat split. discriminate. Qed.

Lemma callbacks_navigate_from_entry_cases :
  (location_hash (getSession_cb id (Some "session-1") at_sign_in)
   = "#/dashboard"
   /\ location_hash
        (onAuthStateChange_cb id "SIGNED_IN" (Some "session-1") at_sign_in)
      = "#/dashboard")
  /\ (location_hash (getSession_cb id (Some "session-1") at_habits)
      = "#/habits"
      /\ location_hash
           (onAuthStateChange_cb id "SIGNED_IN" (Some "session-1") at_habits)
         = "#/habits")
  /\ location_hash
       (onAuthStateChange_cb id "TOKEN_REFRESHED" (Some "session-1") at_sign_in)
     = "#/auth".
Proof.
  split; [| split].
  - destruct (callbacks_navigate_from_entry string string id "SIGNED_IN"
                (Some "session-1") at_sign_in) as [H _].
    destruct H as [Hf Hc]; [discriminate | simpl; auto |].
    split; [exact Hf | apply Hc; now left].
  - apply (callbacks_navigate_from_entry string string id "SIGNED_IN"
             (Some "session-1") at_habits).
    right. simpl. intros [H | [H | H]]; discriminate.
  - apply (callbacks_navigate_from_entry string string id "TOKEN_REFRESHED"
             (Some "session-1") at_sign_in).
    intros [H | H]; discriminate.
Defined.

End Navigation.

(* ------------------------------------------------------------------ *)
(** ** The submit handler, for every context *)

Module Submission.
Import Browser Supabase Effects AuthPage Traces Samples.

Section AnyContext.
Variables User Session : Type.
Variable ctx : Context.AuthContextType User Session.

(** X1. Whatever the operations of the context do, also when they throw,
    [handleSubmit] returns normally: the [catch] clause takes every
    exception and neither it nor the [finally] clause throws. *)
Theorem handleSubmit_never_throws (f : Form) (svc : Service) :
  outcome (handleSubmit ctx f) svc = Returned tt.
Proof.
  unfold outcome, handleSubmit, bind, emit, try_catch_finally; simpl.
  destruct (handleSubmit_body ctx f svc) as [t [[]|e]]; reflexivity.
Qed.

(** X2. Every submission begins by suppressing the form's default action and
    raising the page's loading flag, and ends by lowering the flag. *)
Theorem handleSubmit_brackets_loading (f : Form) (svc : Service) :
  exists middle,
    trace (handleSubmit ctx f) svc
    = (PreventDefault :: SetLoading true :: middle ++ [SetLoading false])%list.
Proof.
  unfold trace, handleSubmit, bind, emit, try_catch_finally; simpl.
  destruct (handleSubmit_body ctx f svc) as [t [[]|e]]; simpl.
  - exists t. reflexivity.
  - exists (t ++ [destructive "An error occurred"
                    "Please try again later."])%list.
    now rewrite <- app_assoc.
Qed.

End AnyContext.

(** X3. A sign-up that fails validation is settled before the context is
    touched: the handler's effects are the same for every context and every
    service, and hold no call. *)
Theorem rejected_signUp_ignores_context
    (User Session User' Session' : Type)
    (ctx : Context.AuthContextType User Session)
    (ctx' : Context.AuthContextType User' Session')
    (svc svc' : Service) (email password confirmPassword name : string) :
  password <> confirmPassword \/ String.length password < 6 ->
  let f := mkForm signup email password confirmPassword name in
  trace (handleSubmit ctx f) svc = trace (handleSubmit ctx' f) svc'
  /\ calls (trace (handleSubmit ctx f) svc) = []
  /\ List.length (toasts (trace (handleSubmit ctx f) svc)) = 1.
Proof.
  intros Hbad f. subst f.
  unfold trace, handleSubmit, handleSubmit_body; simpl.
  destruct (String.eqb_spec password confirmPassword) as [<- | Hne]; simpl.
  - destruct Hbad as [Hne | Hlt]; [congruence |].
    apply Nat.ltb_lt in Hlt. rewrite Hlt. repeat split.
  - repeat split.
Qed.

Lemma rejected_signUp_ignores_context_short :
  let f := mkForm signup "user@example.com" "abc12" "abc12" "User" in
  trace (handleSubmit (@context_of string string None None false) f) accepting
  = trace (handleSubmit (@context_of unit unit (Some tt) (Some tt) true) f)
          (fun _ => Rejected "offline")
  /\ calls (trace (handleSubmit (@context_of string string None None false) f)
              accepting) = []
  /\ List.length
       (toasts (trace (handleSubmit (@context_of string string None None false)
                         f) accepting)) = 1.
Proof.
  apply (rejected_signUp_ignores_context string string unit unit).
  right. simpl. lia.
Defined.

(** X4. In login mode nothing is validated: whatever the password and the
    confirmation field hold, the handler makes one call, a password sign-in
    with the email and password entered. The service's error message is
    shown as it came, a rejected call as a generic message, and success
    shows nothing. *)
Theorem login_is_sent_unvalidated
    (User Session : Type) (env : Env)
    (st : SessionStore.AuthState User Session) (svc : Service)
    (email password confirmPassword name : string) :
  let t := trace (handleSubmit (UseAuthA.value env st)
                    (mkForm login email password confirmPassword name)) svc in
  let call := signInWithPassword_call email password in
  calls t = [call]
  /\ toasts t
     = match svc call with
       | Resolved _ (Some e) => [("Login failed", message e)]
       | Resolved _ None => []
       | Rejected _ => [("An error occurred", "Please try again later.")]
       end.
Proof.
  intros t call. subst t call.
  unfold trace, handleSubmit, handleSubmit_body; simpl.
  cbv [try_catch_finally bind emit UseAuthA.value Context.signIn
       UseAuthA.signIn await ret].
  destruct (svc _) as [url [e|]|reason]; split; reflexivity.
Qed.

(** X5. A sign-up that passes validation makes one call: a sign-up with the
    email and password entered, the revision's email target, and the name
    as [full_name] unless it is empty, in which case no metadata is sent.
    The service's error message is shown as it came, a rejected call as a
    generic message; the confirmation dialog opens exactly when the service
    reported no error. *)
Theorem accepted_signUp_reports
    (User Session : Type) (env : Env)
    (st : SessionStore.AuthState User Session) (svc : Service)
    (email password name : string) :
  6 <= String.length password ->
  let t := trace (handleSubmit (UseAuthA.value env st)
                    (mkForm signup email password password name)) svc in
  let call := signUp_call email password (UseAuthA.getBaseUrl env ++ "/#/auth")
                (if String.eqb name "" then None else Some name) in
  calls t = [call]
  /\ toasts t
     = match svc call with
       | Resolved _ (Some e) => [("Sign up failed", message e)]
       | Resolved _ None => []
       | Rejected _ => [("An error occurred", "Please try again later.")]
       end
  /\ (In (SetShowEmailDialog true) t
      <-> exists url, svc call = Resolved url None).
Proof.
  intros Hlen t call. subst t call.
  unfold trace, handleSubmit, handleSubmit_body; simpl.
  rewrite String.eqb_refl; simpl.
  apply Nat.ltb_ge in Hlen. rewrite Hlen.
  cbv [try_catch_finally bind emit UseAuthA.value Context.signUp
       UseAuthA.signUp await ret JS.truthy].
  destruct (String.eqb name ""); simpl;
    destruct (svc _) as [url [e|]|reason]; simpl;
    (split; [reflexivity | split; [reflexivity |]]);
    (split;
     [ intros H; simpl in H;
       intuition (try discriminate; try congruence; eauto)
     | intros [u Hu]; simpl; first [congruence | auto 10] ]).
Qed.

Lemma accepted_signUp_reports_taken :
  let svc := fun _ : AuthCall =>
               Resolved None (Some (mkError "User already registered")) in
  let t := trace (handleSubmit (UseAuthA.value at_github_pages
                                  (@SessionStore.initial string string))
                    (mkForm signup "user@example.com" "secret1" "secret1" ""))
                 svc in
  let call := signUp_call "user@example.com" "secret1"
                (UseAuthA.getBaseUrl at_github_pages ++ "/#/auth")
                None in
  calls t = [call]
  /\ toasts t = [("Sign up failed", "User already registered")]
  /\ (In (SetShowEmailDialog true) t
      <-> exists url, svc call = Resolved url None).
Proof.
  apply (accepted_signUp_reports string string at_github_pages
           SessionStore.initial
           (fun _ => Resolved None (Some (mkError "User already registered")))
           "user@example.com" "secret1" "").
  simpl. lia.
Defined.

End Submission.

(* ------------------------------------------------------------------ *)
(** ** The reset-password handler and the confirmation dialog *)

Module Reset.
Import Browser Supabase Effects ResetDialog Samples.

(** X6. With the address field empty the handler asks for an address and stops:
    no operation of the context is invoked, for any context, and the
    reset-loading flag is not touched. *)
Theorem empty_reset_is_refused
    (User Session : Type) (ctx : Context.AuthContextType User Session)
    (svc : Service) :
  handleForgotPassword ctx "" svc
  = ([Shared PreventDefault;
      Shared (AuthPage.destructive "Email required"
                "Please enter your email address.")],
     Returned tt).
Proof. reflexivity. Qed.

Section Requested.
Variables User Session : Type.
Variable env : Env.
Variable st : SessionStore.AuthState User Session.
Variable svc : Service.
Variable address : string.
Hypothesis entered : address <> "".

Let ctx := UseAuthA.value env st.
Let call :=
  resetPasswordForEmail_call address (UseAuthA.getBaseUrl env ++ "/#/auth").

(** The three ways a request can end, as whole traces. *)
Lemma reset_trace :
  handleForgotPassword ctx address svc
  = (match svc call with
     | Resolved _ (Some e) =>
         [Shared PreventDefault; SetResetLoading true; Shared (External call);
          Shared (AuthPage.destructive "Reset failed" (message e));
          SetResetLoading false]
     | Resolved _ None =>
         [Shared PreventDefault; SetResetLoading true; Shared (External call);
          SetShowForgotPassword false; Shared (SetEmailDialogType "reset");
          Shared (SetShowEmailDialog true); SetForgotPasswordEmail "";
          SetResetLoading false]
     | Rejected _ =>
         [Shared PreventDefault; SetResetLoading true; Shared (External call);
          Shared (AuthPage.destructive "An error occurred"
                    "Please try again later.");
          SetResetLoading false]
     end,
     Returned tt).
Proof.
  unfold handleForgotPassword, JS.truthy.
  destruct (String.eqb_spec address ""); [contradiction |]. simpl.
  cbv [ptry_catch_finally pbind pemit toast lift ctx call UseAuthA.value
       Context.resetPassword UseAuthA.resetPassword bind await ret].
  destruct (svc _) as [url [e|]|reason]; reflexivity.
Qed.

End Requested.

(** X7. With an address entered the handler makes one call, a reset request for
    that address with the revision's email target, and returns normally
    however the call ends. The service's error message is shown as it came,
    a rejected call as a generic message; and from any state of the page the
    reset-loading flag is down afterwards. *)
Theorem reset_request_reports
    (User Session : Type) (env : Env)
    (st : SessionStore.AuthState User Session) (svc : Service)
    (address : string) (page : PageState) :
  address <> "" ->
  let run := handleForgotPassword (UseAuthA.value env st) address svc in
  let call := resetPasswordForEmail_call address
                (UseAuthA.getBaseUrl env ++ "/#/auth") in
  snd run = Returned tt
  /\ page_calls (fst run) = [call]
  /\ page_toasts (fst run)
     = match svc call with
       | Resolved _ (Some e) => [("Reset failed", message e)]
       | Resolved _ None => []
       | Rejected _ => [("An error occurred", "Please try again later.")]
       end
  /\ resetLoading (after (fst run) page) = false.
Proof.
  intros Hne run call. subst run call.
  rewrite (reset_trace User Session env st svc address Hne).
  destruct (svc _) as [url [e|]|reason]; repeat split.
Qed.

Lemma reset_request_reports_unknown :
  let svc := fun _ : AuthCall =>
               Resolved None (Some (mkError "Email rate limit exceeded")) in
  let run := handleForgotPassword
               (UseAuthA.value at_github_pages
                  (@SessionStore.initial string string))
               "user@example.com" svc in
  let call := resetPasswordForEmail_call "user@example.com"
                (UseAuthA.getBaseUrl at_github_pages ++ "/#/auth") in
  snd run = Returned tt
  /\ page_calls (fst run) = [call]
  /\ page_toasts (fst run) = [("Reset failed", "Email rate limit exceeded")]
  /\ resetLoading (after (fst run) (opened "" "user@example.com")) = false.
Proof.
  apply (reset_request_reports string string at_github_pages
           SessionStore.initial
           (fun _ => Resolved None (Some (mkError "Email rate limit exceeded")))
           "user@example.com" (opened "" "user@example.com")).
  discriminate.
Defined.

(** X8. After a reset request the service accepted, the reset dialog is closed,
    the confirmation dialog is open under the title 'Password reset sent',
    and the address field has been cleared: so the address the dialog names
    is the [email] field of the login form, whatever address the request was
    made for. *)
Theorem reset_dialog_names_login_email
    (User Session : Type) (env : Env)
    (st : SessionStore.AuthState User Session) (svc : Service)
    (address : string) (page : PageState) (url : option string) :
  address <> "" ->
  svc (resetPasswordForEmail_call address
         (UseAuthA.getBaseUrl env ++ "/#/auth"))
  = Resolved url None ->
  let page' :=
    after (fst (handleForgotPassword (UseAuthA.value env st) address svc))
          page in
  showForgotPassword page' = false
  /\ showEmailDialog page' = true
  /\ dialog_title page' = "Password reset sent"
  /\ forgotPasswordEmail page' = ""
  /\ dialog_address page' = email page.
Proof.
  intros Hne Hok page'. subst page'.
  rewrite (reset_trace User Session env st svc address Hne), Hok.
  unfold dialog_address, dialog_title; simpl.
  repeat split.
Qed.

Lemma reset_dialog_names_login_email_other :
  let page' :=
    after (fst (handleForgotPassword
                  (UseAuthA.value at_github_pages
                     (@SessionStore.initial string string))
                  "reset@example.com" accepting))
          (opened "login@example.com" "reset@example.com") in
  showForgotPassword page' = false
  /\ showEmailDialog page' = true
  /\ dialog_title page' = "Password reset sent"
  /\ forgotPasswordEmail page' = ""
  /\ dialog_address page' = "login@example.com".
Proof.
  apply (reset_dialog_names_login_email string string at_github_pages
           SessionStore.initial accepting "reset@example.com"
           (opened "login@example.com" "reset@example.com") None).
  - discriminate.
  - reflexivity.
Defined.

End Reset.

(* ------------------------------------------------------------------ *)
(** ** Email targets and base URLs of the other revisions *)

Module Targets.
Import Browser Supabase Effects Samples.

Lemma append_empty (s : string) : s ++ "" = s.
Proof. induction s as [|c s IH]; simpl; [reflexivity | now rewrite IH]. Qed.

Lemma length_append (s t : string) :
  String.length (s ++ t) = String.length s + String.length t.
Proof. induction s as [|c s IH]; simpl; [reflexivity | now rewrite IH]. Qed.

Lemma substring_whole (t : string) : substring 0 (String.length t) t = t.
Proof. induction t as [|c t IH]; simpl; [reflexivity | now rewrite IH]. Qed.

Lemma substring_front (s t : string) :
  substring 0 (String.length s) (s ++ t) = s.
Proof.
  induction s as [|c s IH]; simpl; [now destruct t | now rewrite IH].
Qed.

Lemma substring_back (s t : string) :
  substring (String.length s) (String.length t) (s ++ t) = t.
Proof.
  induction s as [|c s IH]; simpl; [apply substring_whole | exact IH].
Qed.

Lemma endsWith_append_slash (s : string) : JS.endsWith (s ++ "/") "/" = true.
Proof.
  unfold JS.endsWith. rewrite length_append. simpl String.length.
  replace (String.length s + 1 - 1) with (String.length s) by lia.
  pose proof (substring_back s "/") as Hback.
  simpl String.length in Hback. rewrite Hback.
  now replace (1 <=? String.length s + 1)%nat with true
    by (symmetry; apply Nat.leb_le; lia).
Qed.

Lemma slice_append_slash (s : string) : JS.slice_0_neg1 (s ++ "/") = s.
Proof.
  unfold JS.slice_0_neg1. rewrite length_append. simpl String.length.
  replace (String.length s + 1 - 1) with (String.length s) by lia.
  apply substring_front.
Qed.

(** X9. part_000:387-397. Without a window the base URL is empty whatever the
    base path; with one, a base path that is undefined, empty or the single
    slash gives the origin alone. *)
Theorem getBaseUrl_A_defaults (location : Location) (base : option string) :
  UseAuthA.getBaseUrl (mkEnv None base) = ""
  /\ UseAuthA.getBaseUrl (mkEnv (Some location) None) = origin location
  /\ UseAuthA.getBaseUrl (mkEnv (Some location) (Some "")) = origin location
  /\ UseAuthA.getBaseUrl (mkEnv (Some location) (Some "/")) = origin location.
Proof.
  unfold UseAuthA.getBaseUrl; simpl. now rewrite append_empty.
Qed.

(** X10. A base path that does not end in a slash is appended as it is, and of
    one that does exactly the final slash is dropped: a second slash before
    it stays. *)
Theorem getBaseUrl_A_drops_one_slash (location : Location)
                                     (basePath : string) :
  basePath <> "" ->
  (JS.endsWith basePath "/" = false ->
   UseAuthA.getBaseUrl (mkEnv (Some location) (Some basePath))
   = origin location ++ basePath)
  /\ UseAuthA.getBaseUrl (mkEnv (Some location) (Some (basePath ++ "/")))
     = origin location ++ basePath.
Proof.
  intros Hne. split.
  - intros Hend. unfold UseAuthA.getBaseUrl; simpl.
    destruct (String.eqb_spec basePath ""); [contradiction |].
    now rewrite Hend.
  - unfold UseAuthA.getBaseUrl; simpl.
    destruct (String.eqb_spec (basePath ++ "/") "") as [E | _].
    + destruct basePath; discriminate.
    + now rewrite endsWith_append_slash, slice_append_slash.
Qed.

Lemma getBaseUrl_A_drops_one_slash_vite :
  (JS.endsWith "/HabitChainTracker_prototype1" "/" = false ->
   UseAuthA.getBaseUrl
     (mkEnv (Some (mkLocation "https://jefferymaina.github.io"
                     "jefferymaina.github.io" ""))
            (Some "/HabitChainTracker_prototype1"))
   = "https://jefferymaina.github.io" ++ "/HabitChainTracker_prototype1")
  /\ UseAuthA.getBaseUrl
       (mkEnv (Some (mkLocation "https://jefferymaina.github.io"
                       "jefferymaina.github.io" ""))
              (Some ("/HabitChainTracker_prototype1" ++ "/")))
     = "https://jefferymaina.github.io" ++ "/HabitChainTracker_prototype1".
Proof.
  apply (getBaseUrl_A_drops_one_slash
           (mkLocation "https://jefferymaina.github.io"
              "jefferymaina.github.io" "")
           "/HabitChainTracker_prototype1").
  discriminate.
Defined.

Ltac run_targets :=
  unfold trace, UseAuthB.signUp, UseAuthB.resetPassword, UseAuthC.signUp,
    UseAuthC.resetPassword, UseAuthC.getAppBaseUrl, UseAuthD.signUp,
    UseAuthD.resetPassword, bind, await, ret; simpl;
  repeat match goal with
         | |- context [match ?svc ?c with _ => _ end] => destruct (svc c)
         end; simpl.

(** X11. part_001:74-92, 127-138 and part_002:80-97, 131-141. In the two
    revisions that append [#/auth] directly, sign-up and reset pass one and
    the same target: on the two local host names the local URL, which ends
    in a slash, then the fragment; on every other host name the production
    URL immediately followed by the fragment, with no slash between. *)
Theorem email_targets_B_C (location : Location) (base : option string)
    (email email' password : string) (name : option string)
    (svc : Service) :
  let env := mkEnv (Some location) base in
  let sent :=
    [ confirmation_targets (trace (UseAuthB.signUp env email password name) svc);
      reset_targets (trace (UseAuthB.resetPassword env email') svc);
      confirmation_targets (trace (UseAuthC.signUp env email password name) svc);
      reset_targets (trace (UseAuthC.resetPassword env email') svc) ] in
  (hostname location = "localhost" \/ hostname location = "127.0.0.1" ->
   Forall (eq ["http://localhost:8080/HabitChainTracker_prototype1/#/auth"])
          sent)
  /\ (hostname location <> "localhost" ->
      hostname location <> "127.0.0.1" ->
      Forall
        (eq ["https://jefferymaina.github.io/HabitChainTracker_prototype1#/auth"])
        sent).
Proof.
  intros env sent. subst env sent.
  assert (Hsent : forall env,
    [ confirmation_targets (trace (UseAuthB.signUp env email password name) svc);
      reset_targets (trace (UseAuthB.resetPassword env email') svc);
      confirmation_targets (trace (UseAuthC.signUp env email password name) svc);
      reset_targets (trace (UseAuthC.resetPassword env email') svc) ]
    = repeat [UseAuthB.getBaseUrl env ++ "#/auth"] 4).
  { intros env. run_targets; reflexivity. }
  rewrite Hsent. clear Hsent.
  pose proof (Resolver.getBaseUrl_B_switch location base) as [Hl Hp].
  split.
  - intros H. rewrite (Hl H). simpl. repeat constructor.
  - intros H1 H2. rewrite (Hp H1 H2). simpl. repeat constructor.
Qed.

Lemma email_targets_B_C_deployed :
  let env := at_github_pages in
  Forall
    (eq ["https://jefferymaina.github.io/HabitChainTracker_prototype1#/auth"])
    [ confirmation_targets
        (trace (UseAuthB.signUp env "user@example.com" "secret1" None)
               accepting);
      reset_targets
        (trace (UseAuthB.resetPassword env "user@example.com") accepting);
      confirmation_targets
        (trace (UseAuthC.signUp env "user@example.com" "secret1" None)
               accepting);
      reset_targets
        (trace (UseAuthC.resetPassword env "user@example.com") accepting) ].
Proof.
  apply (email_targets_B_C
           (mkLocation "https://jefferymaina.github.io"
              "jefferymaina.github.io" "#/auth")
           (Some "/HabitChainTracker_prototype1/")
           "user@example.com" "user@example.com" "secret1" None accepting);
    discriminate.
Defined.

(** X12. part_002:214-228, 256-265. In the revision that appends [/#/auth],
    sign-up and reset pass one and the same target, the resolver's URL
    followed by [/#/auth]: a slash always precedes the fragment. *)
Theorem email_targets_D (env : Env) (email email' password : string)
    (name : option string) (svc svc' : Service) :
  confirmation_targets (trace (UseAuthD.signUp env email password name) svc)
  = [UseAuthD.getBaseUrl env ++ "/#/auth"]
  /\ reset_targets (trace (UseAuthD.resetPassword env email') svc')
     = [UseAuthD.getBaseUrl env ++ "/#/auth"].
Proof. run_targets; split; reflexivity. Qed.

End Targets.

(* ------------------------------------------------------------------ *)
(** ** Invariants of the store, and the guard over its states *)

Module StoreInvariants.
Import Browser Effects SessionStore Router Samples.

Section Reachable.
Variables User Session : Type.
Variable session_user : Session -> User.

(** What every reachable state satisfies: the user cell is the user of the
    session cell, and while the flag is up both cells are still empty. *)
Abbreviation consistent st :=
  (user st = user_of session_user (session st)
   /\ (loading st = true -> session st = None)).

Lemma dispatch_consistent (a : Action Session) (st : AuthState User Session) :
  consistent st -> consistent (dispatch session_user a st).
Proof.
  intros [Hu Hl]. destruct a; simpl; try (split; assumption);
    split; simpl; try reflexivity; discriminate.
Qed.

Lemma steps_consistent (st st' : AuthState User Session) :
  steps session_user st st' -> consistent st -> consistent st'.
Proof.
  induction 1 as [st | st mid st' Hstep _ IH]; [auto |].
  intros H. apply IH. destruct Hstep. now apply dispatch_consistent.
Qed.

(** X13. part_000:399-424. In every reachable state of the store the user is
    present exactly when the session is, and it is that session's user;
    and as long as the loading flag is up there is neither. *)
Theorem user_follows_session (st : AuthState User Session) :
  reachable session_user st ->
  user st = user_of session_user (session st)
  /\ (loading st = true -> user st = None /\ session st = None).
Proof.
  intros Hr.
  assert (H : consistent st).
  { apply (steps_consistent initial st Hr). split; [reflexivity | auto]. }
  destruct H as [Hu Hl]. split; [exact Hu |].
  intros Hload. specialize (Hl Hload). rewrite Hu, Hl. auto.
Qed.

(** X14. The guard, mounted under the provider in any reachable state, decides by
    the session alone: nothing while loading, then the children if a
    session is held and the redirect to /auth if none is. *)
Theorem guard_follows_session
    (Children : Type) (env : Env) (st : AuthState User Session)
    (location : Location) (children : Children) :
  reachable session_user st ->
  ProtectedRoute (Some (UseAuthA.value env st)) location children
  = Returned
      (if loading st then Null
       else match session st with
            | Some _ => Render children
            | None => Navigate "/auth" true (mkNavState location)
            end).
Proof.
  intros Hr.
  assert (H : consistent st).
  { apply (steps_consistent initial st Hr). split; [reflexivity | auto]. }
  destruct H as [Hu _].
  unfold ProtectedRoute; simpl. rewrite Hu.
  destruct (loading st), (session st); reflexivity.
Qed.

End Reachable.

Lemma run_later_reachable : reachable id run_later.
Proof.
  exact (Store.steps_run_all string string id
           [SessionFetched None;
            SignIn "user@example.com" "secret1";
            AuthStateChange "SIGNED_IN" (Some "session-1");
            SignOut;
            AuthStateChange "SIGNED_OUT" None]
           initial).
Qed.

Lemma user_follows_session_run :
  user run_later = user_of id (session run_later)
  /\ (loading run_later = true ->
      user run_later = None /\ session run_later = None).
Proof.
  apply (user_follows_session string string id run_later).
  exact run_later_reachable.
Defined.

Lemma guard_follows_session_run :
  ProtectedRoute (Some (UseAuthA.value at_github_pages run_later))
                 dashboard tt
  = Returned
      (if loading run_later then Null
       else match session run_later with
            | Some _ => Render tt
            | None => Navigate "/auth" true (mkNavState dashboard)
            end).
Proof.
  apply (guard_follows_session string string id unit at_github_pages
           run_later dashboard tt).
  exact run_later_reachable.
Defined.

End StoreInvariants.

(* ------------------------------------------------------------------ *)
(** ** The start-up callbacks of the revision with explicit navigation *)

Module NavigationOrder.
Import UseAuthE Samples.

Section Callbacks.
Variables User Session : Type.
Variable session_user : Session -> User.

Abbreviation on_change := (onAuthStateChange_cb session_user).
Abbreviation on_fetch := (getSession_cb session_user).

Ltac by_cases p s event :=
  destruct p as [st hash]; destruct s as [x|];
  unfold onAuthStateChange_cb, getSession_cb, go_to_dashboard, set_state;
  simpl;
  try destruct (String.eqb event "SIGNED_IN"
                || String.eqb event "INITIAL_SESSION");
  simpl;
  try (destruct (on_entry_route hash) eqn:Hentry; simpl;
       rewrite ?Hentry; simpl);
  try reflexivity.

(** X15. part_003:31-64. Also with the navigation added, the fetch continuation
    and the listener, run on one session value in either order, leave the
    same state cells and the same location hash, and running either twice
    is running it once. *)
Theorem navigating_callbacks_converge (event : string) (s : option Session)
                                      (p : Page User Session) :
  on_fetch s (on_change event s p) = on_change event s (on_fetch s p)
  /\ on_change event s (on_change event s p) = on_change event s p
  /\ on_fetch s (on_fetch s p) = on_fetch s p.
Proof. repeat split; by_cases p s event. Qed.

(** X16. The navigation is added to the callbacks of the other revisions and
    changes nothing else: the state cells are written as
    [SessionStore.onAuthStateChange_cb] and [SessionStore.getSession_cb]
    write them. Once the fetch has delivered a session, the page is not on
    the landing or sign-in route, whichever route it was on. *)
Theorem navigation_extends_store (event : string) (s : option Session)
                                 (p : Page User Session) :
  store (on_change event s p)
  = SessionStore.onAuthStateChange_cb session_user event s (store p)
  /\ store (on_fetch s p)
     = SessionStore.getSession_cb session_user s (store p)
  /\ (s <> None -> on_entry_route (location_hash (on_fetch s p)) = false).
Proof.
  split; [| split].
  - by_cases p s event.
  - by_cases p s event.
  - intros Hs; by_cases p s event; congruence.
Qed.

End Callbacks.

End NavigationOrder.

(* ------------------------------------------------------------------ *)
(** ** The guard outside a provider *)

Module GuardEdge.
Import Effects Router.

(** X17. src/components/protectedroute.tsx:4-18. Mounted outside an
    [AuthProvider] the guard throws the error of [useAuth]: it neither
    renders nor redirects. And whenever it does render something, that is
    the children it was given, under a provider that has finished loading
    and holds a user. *)
Theorem guard_renders_only_for_user
    (User Session Children : Type)
    (ctx : option (Context.AuthContextType User Session))
    (location : Location) (children shown : Children) :
  ProtectedRoute (@None (Context.AuthContextType User Session))
                 location children
  = Thrown "useAuth must be used within an AuthProvider"
  /\ (ProtectedRoute ctx location children = Returned (Render shown) ->
      shown = children
      /\ exists auth u,
           ctx = Some auth
           /\ Context.loading auth = false
           /\ Context.user auth = Some u).
Proof.
  split; [reflexivity |].
  unfold ProtectedRoute. destruct ctx as [auth|]; simpl; [| discriminate].
  destruct (Context.loading auth) eqn:Hl; [discriminate |].
  destruct (Context.user auth) as [u|] eqn:Hu; [| discriminate].
  intros H. injection H as <-. split; [reflexivity |].
  exists auth, u. auto.
Qed.

End GuardEdge.

(* ------------------------------------------------------------------ *)
(** ** The operations of the store *)

Module Operations.
Import Browser Supabase Effects Traces.

Ltac run_operation :=
  cbv [trace outcome UseAuthA.signUp UseAuthA.signIn UseAuthA.signInWithGoogle
       UseAuthA.signOut UseAuthA.resetPassword UseAuthB.signInWithGoogle
       UseAuthE.signInWithGoogle bind emit await ret fst snd];
  repeat match goal with
         | |- context [match ?svc ?c with _ => _ end] => destruct (svc c)
         end; simpl.

(** X18. part_000:446-473. Password sign-in and sign-out each make one call and
    never a second one. Sign-in hands the service's error to its caller
    unchanged; sign-out resolves to nothing even when the service answered
    with an error, which is thereby lost. A rejected call is not caught:
    both throw its reason. *)
Theorem signIn_reports_signOut_does_not
    (email password : string) (svc : Service) :
  calls (trace (UseAuthA.signIn email password) svc)
  = [signInWithPassword_call email password]
  /\ outcome (UseAuthA.signIn email password) svc
     = match svc (signInWithPassword_call email password) with
       | Resolved _ err => Returned (mkResult err)
       | Rejected reason => Thrown reason
       end
  /\ calls (trace UseAuthA.signOut svc) = [signOut_call]
  /\ outcome UseAuthA.signOut svc
     = match svc signOut_call with
       | Resolved _ _ => Returned tt
       | Rejected reason => Thrown reason
       end.
Proof.
  cbv [trace outcome UseAuthA.signIn UseAuthA.signOut bind await ret].
  destruct (svc (signInWithPassword_call email password)),
           (svc signOut_call); repeat split.
Qed.

(** X19. part_000:458-469, part_001:106-121 and part_003:90-95. Google sign-in
    makes one call, for the provider 'google'. The revisions of part_000
    and part_003 pass no redirect target at all; the revision of part_001
    passes its base URL, which with a window present holds no [#]. *)
Theorem google_targets (env : Env) (location : Location)
                       (base : option string) (svc : Service) :
  calls (trace UseAuthA.signInWithGoogle svc)
  = [signInWithOAuth_call "google" None]
  /\ calls (trace UseAuthE.signInWithGoogle svc)
     = [signInWithOAuth_call "google" None]
  /\ calls (trace (UseAuthB.signInWithGoogle env) svc)
     = [signInWithOAuth_call "google" (Some (UseAuthB.getBaseUrl env))]
  /\ JS.includes "#" (UseAuthB.getBaseUrl (mkEnv (Some location) base))
     = false.
Proof.
  split; [| split; [| split]].
  - run_operation; reflexivity.
  - run_operation; reflexivity.
  - run_operation; reflexivity.
  - unfold UseAuthB.getBaseUrl; simpl.
    destruct (_ || _); reflexivity.
Qed.

End Operations.

(* ------------------------------------------------------------------ *)
(** ** The email targets of part_000, from origin and base path *)

Module EmailTargets.
Import Browser Supabase Effects Samples MoreSamples.

(** What the two operations hand to the service as redirect targets. *)
Lemma sent_targets (env : Env) (email email' password : string)
                   (name : option string) (svc svc' : Service) :
  confirmation_targets (trace (UseAuthA.signUp env email password name) svc)
  = [UseAuthA.getBaseUrl env ++ "/#/auth"]
  /\ reset_targets (trace (UseAuthA.resetPassword env email') svc')
     = [UseAuthA.getBaseUrl env ++ "/#/auth"].
Proof.
  unfold trace, UseAuthA.signUp, UseAuthA.resetPassword, bind, await, ret.
  simpl. destruct (svc _), (svc' _); split; reflexivity.
Qed.

(** The resolver's result followed by [/#/auth], read off the window and
    the base path. *)
Lemma target_from_origin (location : Location) (base : option string) :
  let basePath := JS.or_else base "/" in
  UseAuthA.getBaseUrl (mkEnv (Some location) base) ++ "/#/auth"
  = if JS.endsWith basePath "/"
    then origin location ++ basePath ++ "#/auth"
    else origin location ++ basePath ++ "/#/auth".
Proof.
  intros basePath. unfold UseAuthA.getBaseUrl; simpl. fold basePath.
  rewrite StringFacts.append_assoc.
  destruct (JS.endsWith basePath "/") eqn:Hend; [| reflexivity].
  f_equal.
  change "/#/auth" with ("/" ++ "#/auth").
  rewrite <- StringFacts.append_assoc.
  now rewrite (StringFacts.slice_then_slash basePath Hend).
Qed.

(** C7, as the code has it. For every email and environment, [signUp]
    passes as email-confirmation target, and [resetPassword] as reset
    target, one and the same URL. With a window it is the window's origin
    followed by the base path ([BASE_URL], or ['/'] when that is unset or
    empty) and then the fragment suffix [#/auth] when the base path ends in
    a slash, and [/#/auth] when it does not; without a window it is
    [/#/auth]. *)
Theorem email_targets_resolved (env : Env) (email email' password : string)
                               (name : option string) (svc svc' : Service) :
  let basePath := JS.or_else (BASE_URL env) "/" in
  let target :=
    match window env with
    | None => "/#/auth"
    | Some location =>
        if JS.endsWith basePath "/"
        then origin location ++ basePath ++ "#/auth"
        else origin location ++ basePath ++ "/#/auth"
    end in
  confirmation_targets (trace (UseAuthA.signUp env email password name) svc)
  = [target]
  /\ reset_targets (trace (UseAuthA.resetPassword env email') svc')
     = [target].
Proof.
  intros basePath target.
  destruct (sent_targets env email email' password name svc svc')
    as [Hup Hreset].
  rewrite Hup, Hreset.
  assert (Htarget : UseAuthA.getBaseUrl env ++ "/#/auth" = target).
  { subst target basePath. destruct env as [[location|] base]; simpl.
    - apply target_from_origin.
    - reflexivity. }
  rewrite Htarget. split; reflexivity.
Qed.

(** On the deployed site, built with Vite's base path, both targets are the
    site's URL with [#/auth] appended. *)
Lemma email_targets_resolved_deployed :
  confirmation_targets
    (trace (UseAuthA.signUp at_github_pages "user@example.com" "secret1"
              (Some "User")) accepting)
  = ["https://jefferymaina.github.io/HabitChainTracker_prototype1/#/auth"]
  /\ reset_targets
       (trace (UseAuthA.resetPassword at_github_pages "user@example.com")
              accepting)
     = ["https://jefferymaina.github.io/HabitChainTracker_prototype1/#/auth"].
Proof.
  exact (email_targets_resolved at_github_pages "user@example.com"
           "user@example.com" "secret1" (Some "User") accepting accepting).
Defined.

(** C7, as stated, fails. With a base path that has no final slash the
    target is neither the resolver's base URL nor the origin and base path
    followed by [#/auth]: a slash stands between; with Vite's base path it
    is not the resolver's base URL followed by [#/auth] either; and without
    a window it is [/#/auth], which holds no origin. *)
Lemma email_target_is_not_base_then_fragment :
  let sent env :=
    confirmation_targets
      (trace (UseAuthA.signUp env "user@example.com" "secret1" None)
             accepting) in
  (sent at_github_pages_bare
   = ["https://jefferymaina.github.io/HabitChainTracker_prototype1/#/auth"]
   /\ UseAuthA.getBaseUrl at_github_pages_bare ++ "#/auth"
      = "https://jefferymaina.github.io/HabitChainTracker_prototype1#/auth"
   /\ "https://jefferymaina.github.io" ++ "/HabitChainTracker_prototype1"
      ++ "#/auth"
      = "https://jefferymaina.github.io/HabitChainTracker_prototype1#/auth"
   /\ sent at_github_pages_bare
      <> ["https://jefferymaina.github.io/HabitChainTracker_prototype1#/auth"])
  /\ (UseAuthA.getBaseUrl at_github_pages ++ "#/auth"
      = "https://jefferymaina.github.io/HabitChainTracker_prototype1#/auth"
      /\ sent at_github_pages
         <> ["https://jefferymaina.github.io/HabitChainTracker_prototype1#/auth"])
  /\ sent without_window = ["/#/auth"].
Proof.
  intros sent; subst sent; cbv beta.
  split; [| split]; [repeat apply conj | split |];
    try reflexivity; discriminate.
Qed.

End EmailTargets.
